(** * Login form (src/src/Login.js): a shallow embedding and its properties

    The React component [Login] keeps two [useState] cells, renders a form
    with two required inputs and a submit button, a sign-up affordance and
    a Kakao login button.  The embedding has three layers:

    - [Js]: the JavaScript values and effects the component touches
      (console, [window.location.href], the event's default-prevented flag,
      the parent's callback), as a state-and-exception monad over [World];
    - [Component]: the function [Login] itself, translated line by line:
      one render takes the props and the current hook cells and returns the
      element tree together with the handler closures of that render;
    - [Browser]: what the page does with a user action: constraint
      validation of the form, construction of the event object, the call
      [handler(event)], and the default action of a submit event. *)

From Stdlib Require Import String Ascii List Bool.
Import ListNotations.
Set Warnings "-register-all".
Local Open Scope string_scope.
Local Open Scope list_scope.

(* ===================================================================== *)
(** ** JavaScript values and effects *)
(* ===================================================================== *)

Module Js.

(** The event objects React hands to the handlers of this component.
    A change event of an [<input>] carries [e.target.value], the text
    the control holds after the edit. *)
Inductive SyntheticEvent :=
| ChangeEvent (target_value : string)
| SubmitEvent
| ClickEvent.

Inductive JsVal :=
| VUndefined
| VString (s : string)
| VObject (fields : list (string * JsVal))
| VEvent (e : SyntheticEvent).

(** Login.js lines 5-6: the two hook cells of one mounted component. *)
Record LoginFormState := mkState {
  username : string;
  password : string
}.

(** Everything a handler can read or write.  [api_calls] stands for the
    login service a page would call (line 11: the place left for it);
    nothing in Login.js writes it. *)
Record World := mkWorld {
  hooks : LoginFormState;             (* the useState cells *)
  console : list (list JsVal);        (* console.log calls, oldest first *)
  href_writes : list string;          (* assignments to window.location.href *)
  signup_calls : list (list JsVal);   (* argument lists given to onClickSignUp *)
  default_prevented : bool;           (* flag of the event being dispatched *)
  page_loads : nat;                   (* full-page loads after the first *)
  api_calls : list JsVal              (* payloads sent to a login service *)
}.

(** [TypeError]: a property of [undefined] was read.  [NonStringValue]:
    [e.target.value] was read on an event whose target has no text
    value; the hook cells hold strings only, and React calls the
    [onChange] of an input with change events of that input only. *)
Inductive JsError := TypeError | NonStringValue.

Inductive Completion (A : Type) :=
| Normal (a : A)
| Throw (err : JsError).
Arguments Normal {A} a.
Arguments Throw {A} err.

Definition M (A : Type) : Type := World -> Completion A * World.

Definition ret {A} (a : A) : M A := fun w => (Normal a, w).

Definition bind {A B} (c : M A) (k : A -> M B) : M B :=
  fun w =>
    match c w with
    | (Normal a, w') => k a w'
    | (Throw err, w') => (Throw err, w')
    end.

Definition throw {A} (err : JsError) : M A := fun w => (Throw err, w).

(** A JavaScript function of the page: called with an argument list. *)
Definition JsFun : Type := list JsVal -> M unit.

(** Reading a parameter: a missing argument is [undefined]. *)
Definition arg (n : nat) (args : list JsVal) : JsVal := nth n args VUndefined.

Definition with_hooks (h : LoginFormState) (w : World) : World :=
  mkWorld h (console w) (href_writes w) (signup_calls w)
          (default_prevented w) (page_loads w) (api_calls w).

Definition with_default_prevented (b : bool) (w : World) : World :=
  mkWorld (hooks w) (console w) (href_writes w) (signup_calls w)
          b (page_loads w) (api_calls w).

(** [setUsername(v)] and [setPassword(v)]: the setters returned by
    [useState] replace their own cell. *)
Definition setUsername (v : string) : M unit :=
  fun w => (Normal tt, with_hooks (mkState v (password (hooks w))) w).

Definition setPassword (v : string) : M unit :=
  fun w => (Normal tt, with_hooks (mkState (username (hooks w)) v) w).

(** [console.log(...args)] *)
Definition console_log (args : list JsVal) : M unit :=
  fun w => (Normal tt,
            mkWorld (hooks w) (console w ++ [args]) (href_writes w)
                    (signup_calls w) (default_prevented w) (page_loads w) (api_calls w)).

(** [window.location.href = url].  The assignment is what is recorded.
    The navigation it starts replaces the document, and with it the
    form; that is not followed here, so what is stated about the page
    and the fields over whole runs is stated for runs without such an
    assignment. *)
Definition set_location_href (url : string) : M unit :=
  fun w => (Normal tt,
            mkWorld (hooks w) (console w) (href_writes w ++ [url])
                    (signup_calls w) (default_prevented w) (page_loads w) (api_calls w)).

(** [e.preventDefault()]; on [undefined] the property access throws. *)
Definition preventDefault (e : JsVal) : M unit :=
  match e with
  | VEvent _ => fun w => (Normal tt, with_default_prevented true w)
  | _ => throw TypeError
  end.

(** [e.target.value] *)
Definition get_target_value (e : JsVal) : M string :=
  match e with
  | VEvent (ChangeEvent v) => ret v
  | VEvent _ => throw NonStringValue
  | _ => throw TypeError
  end.

(** The callback the parent passes as [onClickSignUp] is not part of
    this file's source; a call to it is observed as the argument list
    it received. *)
Definition parent_onClickSignUp : JsFun :=
  fun args w =>
    (Normal tt,
     mkWorld (hooks w) (console w) (href_writes w)
             (signup_calls w ++ [args]) (default_prevented w) (page_loads w) (api_calls w)).

End Js.

Import Js.

Declare Scope js_scope.
Delimit Scope js_scope with js.
Notation "x <- c ;; k" := (bind c (fun x => k))
  (at level 61, c at next level, right associativity) : js_scope.
Notation "c ;; k" := (bind c (fun _ => k))
  (at level 61, right associativity) : js_scope.
Local Open Scope js_scope.

(* ===================================================================== *)
(** ** The component *)
(* ===================================================================== *)

Module Component.

(** [function Login({ onClickSignUp })] *)
Record Props := mkProps {
  onClickSignUp : JsFun
}.

(** An [<input>] of the form, with the attributes that carry behaviour
    ([placeholder] and [className] are presentation only). *)
Record InputElement := mkInput {
  input_type : string;
  id : string;
  value : string;
  onChange : JsFun;
  required : bool
}.

(** The element tree returned by one render.  The submit button and
    both inputs are children of the form; the sign-up [div] and the
    Kakao button are its siblings (lines 49-50, after [</form>]). *)
Record LoginView := mkView {
  form_onSubmit : JsFun;
  input_username : InputElement;
  input_password : InputElement;
  sign_up_start_onClick : JsFun;
  kakao_login_onClick : JsFun
}.

(** Lines 5-6: [useState('')], twice. *)
Definition useState_initial : LoginFormState :=
  {| username := ""; password := "" |}.

Section Render.
Variable props : Props.
(** What the two [useState] calls return during this render. *)
Variable cells : LoginFormState.

(** Lines 8-12. *)
Definition handleLogin : JsFun :=
  fun args =>
    let e := arg 0 args in
    preventDefault e ;;
    console_log [VString "Login attempt:";
                 VObject [("username", VString (username cells));
                          ("password", VString (password cells))]].

(** Lines 14-16. *)
Definition handleKakaoLogin : JsFun :=
  fun _ => set_location_href "http://localhost:8000/login/kakao".

(** Lines 18-53. *)
Definition Login : LoginView :=
  {| form_onSubmit := handleLogin;
     input_username :=
       {| input_type := "text";
          id := "username";
          value := username cells;
          onChange := fun args =>
                        let e := arg 0 args in
                        v <- get_target_value e ;; setUsername v;
          required := true |};
     input_password :=
       {| input_type := "password";
          id := "password";
          value := password cells;
          onChange := fun args =>
                        let e := arg 0 args in
                        v <- get_target_value e ;; setPassword v;
          required := true |};
     sign_up_start_onClick := onClickSignUp props;
     kakao_login_onClick := handleKakaoLogin |}.
End Render.

End Component.

Import Component.

(* ===================================================================== *)
(** ** The page around the component *)
(* ===================================================================== *)

Module Browser.

Inductive UserAction :=
| TypeUsername (v : string)   (* input#username now holds v *)
| TypePassword (v : string)   (* input#password now holds v *)
| ClickLoginButton            (* the form's submit button, or Enter in a field *)
| ClickSignUp                 (* div.sign-up-start *)
| ClickKakao.                 (* button.kakao-login *)

(** The world in which the component has just been mounted. *)
Definition mount : World :=
  {| hooks := useState_initial;
     console := [];
     href_writes := [];
     signup_calls := [];
     default_prevented := false;
     page_loads := 0;
     api_calls := [] |}.

(** Constraint validation of a text or password control: it suffers
    from being missing when it is required and its value is the empty
    string. *)
Definition value_missing (i : InputElement) : bool :=
  required i && (value i =? "").

Definition form_controls (v : LoginView) : list InputElement :=
  [input_username v; input_password v].

Definition checkValidity (v : LoginView) : bool :=
  forallb (fun i => negb (value_missing i)) (form_controls v).

(** React calls a handler with the event object as its one argument;
    the effects of the call stay, however it completes. *)
Definition dispatch (h : JsFun) (ev : SyntheticEvent) (w : World) : World :=
  snd (h [VEvent ev] w).

(** Default action of a submit event on a form without [action]: the
    page is loaded again and the component mounts afresh. *)
Definition reload (w : World) : World :=
  mkWorld useState_initial (console w) (href_writes w) (signup_calls w)
          (default_prevented w) (S (page_loads w)) (api_calls w).

(** Submission of the form, once validation has let it through: a fresh
    submit event is dispatched to [onSubmit], then the default action
    runs unless the handler prevented it. *)
Definition submit_form (v : LoginView) (w : World) : World :=
  let w1 := dispatch (form_onSubmit v) SubmitEvent
                     (with_default_prevented false w) in
  if default_prevented w1 then w1 else reload w1.

(** One user action, handled to completion.  The handlers are those of
    the last render, that is of the current hook cells. *)
Definition step (props : Props) (a : UserAction) (w : World) : World :=
  let view := Login props (hooks w) in
  match a with
  | TypeUsername v => dispatch (onChange (input_username view)) (ChangeEvent v) w
  | TypePassword v => dispatch (onChange (input_password view)) (ChangeEvent v) w
  | ClickLoginButton => if checkValidity view then submit_form view w else w
  | ClickSignUp => dispatch (sign_up_start_onClick view) ClickEvent w
  | ClickKakao => dispatch (kakao_login_onClick view) ClickEvent w
  end.

Definition run (props : Props) (acts : list UserAction) (w : World) : World :=
  fold_left (fun w a => step props a w) acts w.

(** What the two fields show: the [value] attributes of the render. *)
Definition displayed_username (props : Props) (w : World) : string :=
  value (input_username (Login props (hooks w))).

Definition displayed_password (props : Props) (w : World) : string :=
  value (input_password (Login props (hooks w))).

(** The props under which the parent's callback is observed. *)
Definition observed_props : Props :=
  {| onClickSignUp := parent_onClickSignUp |}.

(** The argument list of the one [console.log] call of [handleLogin]. *)
Definition login_attempt (u p : string) : list JsVal :=
  [VString "Login attempt:";
   VObject [("username", VString u); ("password", VString p)]].

(** The target of the Kakao login. *)
Definition kakao_url : string := "http://localhost:8000/login/kakao".

(** What a text or password control keeps of the text entered into it:
    the line breaks (LF, CR) are removed.  [input#username] has type text
    and [input#password] type password (lines 26 and 38). *)
Definition is_line_break (c : ascii) : bool :=
  match c with
  | "010"%char | "013"%char => true
  | _ => false
  end.

Fixpoint strip_line_breaks (s : string) : string :=
  match s with
  | EmptyString => EmptyString
  | String c s' =>
      if is_line_break c then strip_line_breaks s'
      else String c (strip_line_breaks s')
  end.

Fixpoint has_line_break (s : string) : bool :=
  match s with
  | EmptyString => false
  | String c s' => is_line_break c || has_line_break s'
  end.

(** The user replaces the content of a field by the text [raw], typed or
    pasted: the control then holds what it keeps of [raw]. *)
Definition EnterUsername (raw : string) : UserAction :=
  TypeUsername (strip_line_breaks raw).

Definition EnterPassword (raw : string) : UserAction :=
  TypePassword (strip_line_breaks raw).

(** Two texts made of one line break each. *)
Definition LF : string := String "010"%char EmptyString.
Definition CR : string := String "013"%char EmptyString.

(** A console entry written by an accepted submission: the login record
    with both fields non-empty. *)
Definition nonempty_attempt (entry : list JsVal) : Prop :=
  exists u p, entry = login_attempt u p /\ u <> "" /\ p <> "".

(** The value the identifier field was last set to by a run of actions,
    [d] when the run has no such edit; likewise for the secret field. *)
Definition last_typed_username (acts : list UserAction) (d : string) : string :=
  fold_left (fun d a => match a with TypeUsername v => v | _ => d end) acts d.

Definition last_typed_password (acts : list UserAction) (d : string) : string :=
  fold_left (fun d a => match a with TypePassword v => v | _ => d end) acts d.

End Browser.

Import Browser.

(* ===================================================================== *)
(** ** Measures on runs of user actions *)
(* ===================================================================== *)

Module Traces.

Definition is_edit (a : UserAction) : bool :=
  match a with
  | TypeUsername _ | TypePassword _ => true
  | _ => false
  end.

Definition is_kakao_click (a : UserAction) : bool :=
  match a with ClickKakao => true | _ => false end.

Definition is_sign_up_click (a : UserAction) : bool :=
  match a with ClickSignUp => true | _ => false end.

(** How many actions of a run satisfy [f]. *)
Definition count_actions (f : UserAction -> bool) (acts : list UserAction) : nat :=
  length (filter f acts).

End Traces.

Import Traces.


(* ===================================================================== *)
(** ** Running the handlers *)
(* ===================================================================== *)

(** The equations of one step, one per user action. *)

Lemma step_TypeUsername props v w :
  step props (TypeUsername v) w
  = with_hooks (mkState v (password (hooks w))) w.
Proof. reflexivity. Qed.

Lemma step_TypePassword props v w :
  step props (TypePassword v) w
  = with_hooks (mkState (username (hooks w)) v) w.
Proof. reflexivity. Qed.

Lemma step_ClickKakao props w :
  step props ClickKakao w
  = mkWorld (hooks w) (console w) (href_writes w ++ [kakao_url])
            (signup_calls w) (default_prevented w) (page_loads w) (api_calls w).
Proof. reflexivity. Qed.

Lemma step_ClickSignUp props w :
  step props ClickSignUp w = snd (onClickSignUp props [VEvent ClickEvent] w).
Proof. reflexivity. Qed.

(** [handleLogin] called with an event object. *)
Lemma handleLogin_event cells ev rest w :
  handleLogin cells (VEvent ev :: rest) w
  = (Normal tt,
     mkWorld (hooks w)
             (console w ++ [login_attempt (username cells) (password cells)])
             (href_writes w) (signup_calls w) true (page_loads w) (api_calls w)).
Proof. reflexivity. Qed.

(** The form as submitted by the page: the handler has prevented the
    default action, so the world after the submission is the world after
    the handler. *)
Lemma submit_form_Login props w :
  submit_form (Login props (hooks w)) w
  = mkWorld (hooks w)
            (console w ++
               [login_attempt (username (hooks w)) (password (hooks w))])
            (href_writes w) (signup_calls w) true (page_loads w) (api_calls w).
Proof. reflexivity. Qed.

(** Validation of the rendered form, in terms of the hook cells. *)
Lemma checkValidity_Login props cells :
  checkValidity (Login props cells)
  = negb (username cells =? "") && negb (password cells =? "").
Proof.
  unfold checkValidity, value_missing; simpl.
  now rewrite andb_true_r.
Qed.

Lemma eqb_empty_false (s : string) : s <> "" -> (s =? "") = false.
Proof. intro H. now apply String.eqb_neq. Qed.

Lemma step_ClickLoginButton_blocked props w :
  username (hooks w) = "" \/ password (hooks w) = "" ->
  step props ClickLoginButton w = w.
Proof.
  intros H. unfold step. rewrite checkValidity_Login.
  destruct H as [-> | ->]; simpl; [reflexivity | now rewrite andb_false_r].
Qed.

Lemma step_ClickLoginButton_accepted props w :
  username (hooks w) <> "" -> password (hooks w) <> "" ->
  step props ClickLoginButton w = submit_form (Login props (hooks w)) w.
Proof.
  intros Hu Hp. unfold step. rewrite checkValidity_Login.
  now rewrite (eqb_empty_false _ Hu), (eqb_empty_false _ Hp).
Qed.

(** A submit click never touches the hook cells, whether the page lets
    it through or not. *)
Lemma hooks_step_ClickLoginButton props w :
  hooks (step props ClickLoginButton w) = hooks w.
Proof.
  unfold step. destruct (checkValidity _); [|reflexivity].
  now rewrite submit_form_Login.
Qed.

(** The hook cells after one step, under the observed props. *)
Lemma hooks_step_observed a w :
  hooks (step observed_props a w)
  = match a with
    | TypeUsername v => mkState v (password (hooks w))
    | TypePassword v => mkState (username (hooks w)) v
    | _ => hooks w
    end.
Proof.
  destruct a; try reflexivity.
  apply hooks_step_ClickLoginButton.
Qed.

(** The model of the page is not blind to the default action: a submit
    handler that does not call [preventDefault] loses the field state to
    the page load. *)
Example submit_without_preventDefault_reloads :
  let view := mkView (fun _ => ret tt)
                     (input_username (Login observed_props (mkState "alice" "pw1")))
                     (input_password (Login observed_props (mkState "alice" "pw1")))
                     parent_onClickSignUp handleKakaoLogin in
  let w := submit_form view (with_hooks (mkState "alice" "pw1") mount) in
  hooks w = mkState "" "" /\ page_loads w = 1.
Proof. split; reflexivity. Qed.

Lemma strip_line_breaks_fixed (s : string) :
  has_line_break s = false -> strip_line_breaks s = s.
Proof.
  induction s as [|c s IH]; intros H; [reflexivity|].
  simpl in H. apply orb_false_iff in H as [Hc Hs].
  simpl. rewrite Hc. now rewrite (IH Hs).
Qed.

(** Under the observed props a step leaves the console alone or adds one
    login record whose two fields are non-empty. *)
Lemma console_step_observed a w :
  console (step observed_props a w) = console w
  \/ exists e, nonempty_attempt e
               /\ console (step observed_props a w) = console w ++ [e].
Proof.
  destruct a; try (left; reflexivity).
  unfold step. rewrite checkValidity_Login.
  destruct (username (hooks w) =? "") eqn:Hu; [left; reflexivity|].
  destruct (password (hooks w) =? "") eqn:Hp; [left; reflexivity|].
  right. simpl negb. simpl andb. cbv iota.
  rewrite submit_form_Login. simpl.
  eexists. split; [|reflexivity].
  exists (username (hooks w)), (password (hooks w)).
  apply String.eqb_neq in Hu, Hp. auto.
Qed.

Lemma console_run_observed acts : forall w,
  Forall nonempty_attempt (console w) ->
  Forall nonempty_attempt (console (run observed_props acts w)).
Proof.
  induction acts as [|a acts IH]; intros w Hw; [exact Hw|].
  simpl. apply IH.
  destruct (console_step_observed a w) as [-> | (e & He & ->)]; [exact Hw|].
  apply Forall_app. split; [exact Hw|]. now constructor.
Qed.

(** The hook cells after a run of actions hold what was typed last,
    whatever was clicked in between. *)
Lemma hooks_run_observed acts : forall w,
  hooks (run observed_props acts w)
  = mkState (last_typed_username acts (username (hooks w)))
            (last_typed_password acts (password (hooks w))).
Proof.
  induction acts as [|a acts IH]; intros w.
  - unfold run, last_typed_username, last_typed_password; simpl.
    now destruct (hooks w).
  - change (run observed_props (a :: acts) w)
      with (run observed_props acts (step observed_props a w)).
    rewrite IH, hooks_step_observed.
    destruct a; reflexivity.
Qed.

Lemma last_cons {A} (v : A) (vs : list A) (d : A) :
  last (v :: vs) d = last vs v.
Proof.
  revert v d. induction vs as [|x vs IH]; intros v d; [reflexivity|].
  change (last (v :: x :: vs) d) with (last (x :: vs) d).
  now rewrite !IH.
Qed.

Lemma username_run_TypeUsername props vs : forall w,
  username (hooks (run props (map TypeUsername vs) w))
  = last vs (username (hooks w)).
Proof.
  induction vs as [|v vs IH]; intros w; [reflexivity|].
  change (run props (map TypeUsername (v :: vs)) w)
    with (run props (map TypeUsername vs) (step props (TypeUsername v) w)).
  rewrite IH, step_TypeUsername. simpl hooks.
  now rewrite last_cons.
Qed.

Lemma password_run_TypePassword props vs : forall w,
  password (hooks (run props (map TypePassword vs) w))
  = last vs (password (hooks w)).
Proof.
  induction vs as [|v vs IH]; intros w; [reflexivity|].
  change (run props (map TypePassword (v :: vs)) w)
    with (run props (map TypePassword vs) (step props (TypePassword v) w)).
  rewrite IH, step_TypePassword. simpl hooks.
  now rewrite last_cons.
Qed.

(* ===================================================================== *)
(** ** Properties of the login form *)
(* ===================================================================== *)

(** C1, as claimed, fails.  The claim is that the submit handler
    forwards the record to the external authentication collaborator
    exactly once.  With the fields holding "alice" and "pw1" the handler
    runs to completion and no payload has been sent to a login service:
    the record was written to the console, and line 11 only marks the
    place where the call is to be added. *)
Lemma C1_counterexample_nothing_forwarded :
  let w := run observed_props [TypeUsername "alice"; TypePassword "pw1"] mount in
  let w' := snd (form_onSubmit (Login observed_props (hooks w))
                               [VEvent SubmitEvent] w) in
  api_calls w' = []
  /\ api_calls w'
     <> api_calls w ++ [VObject [("username", VString "alice");
                                 ("password", VString "pw1")]]
  /\ console w' = [login_attempt "alice" "pw1"].
Proof. repeat split. discriminate. Qed.

(** C1, amended.  When the submit handler runs while the fields hold
    identifier [i] and secret [s], it completes normally and writes the
    record [{username: i, password: s}] to the console exactly once, with
    [i] and [s] unchanged; it sends nothing to a login service and writes
    no other sink. *)
Theorem C1_submit_logs_credentials_once
    (props : Props) (i s : string) (w : World) (ev : SyntheticEvent) :
  hooks w = mkState i s ->
  exists w',
    form_onSubmit (Login props (hooks w)) [VEvent ev] w = (Normal tt, w')
    /\ console w' = console w ++ [login_attempt i s]
    /\ api_calls w' = api_calls w
    /\ href_writes w' = href_writes w
    /\ signup_calls w' = signup_calls w.
Proof.
  intros H. simpl form_onSubmit. rewrite handleLogin_event, H.
  eexists. split; [reflexivity|]. simpl. auto.
Qed.

(** The scenario of the specification: identifier "alice", secret "pw1". *)
Lemma C1_witness_alice_logged :
  let w := run observed_props [TypeUsername "alice"; TypePassword "pw1"] mount in
  hooks w = mkState "alice" "pw1"
  /\ exists w',
       form_onSubmit (Login observed_props (hooks w)) [VEvent SubmitEvent] w
       = (Normal tt, w')
       /\ console w' = console w ++ [login_attempt "alice" "pw1"]
       /\ api_calls w' = api_calls w
       /\ href_writes w' = href_writes w
       /\ signup_calls w' = signup_calls w.
Proof.
  split; [reflexivity|].
  apply (C1_submit_logs_credentials_once
           observed_props "alice" "pw1"
           (run observed_props [TypeUsername "alice"; TypePassword "pw1"] mount)
           SubmitEvent).
  reflexivity.
Defined.

(** C2. Along every sequence of edits and clicks from the mounted form:
    while the identifier or the secret is the empty string a click on the
    submit button changes nothing (the handler is not run); as soon as
    both are non-empty the same click runs the handler, which logs the
    record; and no record with an empty field is ever logged. *)
Theorem C2_submission_gated_by_required_fields
    (props : Props) (acts : list UserAction) :
  let w := run props acts mount in
  (username (hooks w) = "" \/ password (hooks w) = "" ->
   step props ClickLoginButton w = w)
  /\ (username (hooks w) <> "" -> password (hooks w) <> "" ->
      console (step props ClickLoginButton w)
      = console w ++ [login_attempt (username (hooks w)) (password (hooks w))])
  /\ Forall nonempty_attempt (console (run observed_props acts mount)).
Proof.
  intros w. split; [|split].
  - apply step_ClickLoginButton_blocked.
  - intros Hu Hp.
    rewrite (step_ClickLoginButton_accepted _ _ Hu Hp), submit_form_Login.
    reflexivity.
  - apply console_run_observed. constructor.
Qed.

(** With the secret left empty the click is blocked; once it is filled
    in the click goes through. *)
Lemma C2_witness_blocked_then_accepted :
  let w0 := run observed_props [TypeUsername "alice"; ClickLoginButton] mount in
  let w1 := run observed_props
              [TypeUsername "alice"; ClickLoginButton; TypePassword "pw1"] mount in
  step observed_props ClickLoginButton w0 = w0
  /\ console (step observed_props ClickLoginButton w1)
     = console w1 ++ [login_attempt "alice" "pw1"].
Proof.
  split.
  - apply (proj1 (C2_submission_gated_by_required_fields
                    observed_props [TypeUsername "alice"; ClickLoginButton])).
    right. reflexivity.
  - apply (proj1 (proj2 (C2_submission_gated_by_required_fields
                    observed_props
                    [TypeUsername "alice"; ClickLoginButton; TypePassword "pw1"]))).
    + discriminate.
    + discriminate.
Defined.

(** C3. Every submission of the form has its default action prevented by
    the handler: no page load follows, and the hook cells after the
    submission are the cells before it. *)
Theorem C3_submit_suppresses_navigation (props : Props) (w : World) :
  let w' := submit_form (Login props (hooks w)) w in
  default_prevented w' = true
  /\ page_loads w' = page_loads w
  /\ hooks w' = hooks w
  /\ href_writes w' = href_writes w.
Proof.
  intros w'. subst w'. rewrite submit_form_Login. simpl. auto.
Qed.

(** C4. A click on the Kakao button appends exactly one assignment to
    [window.location.href], and its target is the same fixed URL from any
    two worlds, whatever their fields hold. *)
Theorem C4_identity_provider_target_fixed (props : Props) (w1 w2 : World) :
  href_writes (step props ClickKakao w1) = href_writes w1 ++ [kakao_url]
  /\ href_writes (step props ClickKakao w2) = href_writes w2 ++ [kakao_url]
  /\ hooks (step props ClickKakao w1) = hooks w1
  /\ hooks (step props ClickKakao w2) = hooks w2.
Proof.
  rewrite !step_ClickKakao. simpl. auto.
Qed.

(** C5, as claimed, fails.  The claim is that a click on the sign-up
    affordance calls [onClickSignUp] once with no arguments, that is with
    the empty argument list.  The callback is itself the [onClick]
    handler of the [div], so it is called the way every handler is: on
    the mounted form one click calls it once with the click event as its
    argument, not with the empty argument list. *)
Lemma C5_counterexample_callback_receives_event :
  signup_calls (step observed_props ClickSignUp mount) = [[VEvent ClickEvent]]
  /\ signup_calls (step observed_props ClickSignUp mount)
     <> signup_calls mount ++ [[]].
Proof. split; [reflexivity | discriminate]. Qed.

(** C5, amended.  Each click on the sign-up affordance calls the supplied
    [onClickSignUp] exactly once, passing the click event object as its
    only argument, whatever the fields hold; the component itself does
    nothing else on that click. *)
Theorem C5_sign_up_click_calls_callback_once_with_event
    (props : Props) (w : World) :
  step props ClickSignUp w = snd (onClickSignUp props [VEvent ClickEvent] w)
  /\ signup_calls (step observed_props ClickSignUp w)
     = signup_calls w ++ [[VEvent ClickEvent]]
  /\ hooks (step observed_props ClickSignUp w) = hooks w
  /\ console (step observed_props ClickSignUp w) = console w
  /\ href_writes (step observed_props ClickSignUp w) = href_writes w.
Proof. repeat split. Qed.

(** C6. After any finite sequence of edits of the identifier field the
    field shows exactly the last value given to [setUsername] (the value
    it showed before, when the sequence is empty), and likewise for the
    secret field and [setPassword]. *)
Theorem C6_field_shows_last_edit (props : Props) (vs : list string) (w : World) :
  displayed_username props (run props (map TypeUsername vs) w)
  = last vs (displayed_username props w)
  /\ displayed_password props (run props (map TypePassword vs) w)
     = last vs (displayed_password props w).
Proof.
  unfold displayed_username, displayed_password. simpl value.
  split; [apply username_run_TypeUsername | apply password_run_TypePassword].
Qed.

(** The same with clicks and edits of the other field in between. *)
Lemma field_shows_last_edit_interleaved (acts : list UserAction) (w : World) :
  displayed_username observed_props (run observed_props acts w)
  = last_typed_username acts (displayed_username observed_props w)
  /\ displayed_password observed_props (run observed_props acts w)
     = last_typed_password acts (displayed_password observed_props w).
Proof.
  unfold displayed_username, displayed_password. simpl value.
  rewrite hooks_run_observed. split; reflexivity.
Qed.

Example type_alice_reads_alice :
  displayed_username observed_props
    (run observed_props
       [TypeUsername "a"; TypeUsername "al"; TypeUsername "ali";
        TypeUsername "alic"; TypeUsername "alice"] mount)
  = "alice".
Proof. reflexivity. Qed.

(** C7. On mount both hook cells are the empty string, and so are the
    values both fields show. *)
Theorem C7_initial_fields_empty (props : Props) :
  username useState_initial = ""
  /\ password useState_initial = ""
  /\ hooks mount = useState_initial
  /\ displayed_username props mount = ""
  /\ displayed_password props mount = "".
Proof. repeat split. Qed.

(** C8. The two fields are independent: [setUsername v] leaves the
    secret as it was and [setPassword v] leaves the identifier as it was,
    as calls of the setters and as edits of the rendered fields. *)
Theorem C8_fields_independent (props : Props) (w : World) (v : string) :
  password (hooks (snd (setUsername v w))) = password (hooks w)
  /\ username (hooks (snd (setPassword v w))) = username (hooks w)
  /\ displayed_password props (step props (TypeUsername v) w)
     = displayed_password props w
  /\ displayed_username props (step props (TypePassword v) w)
     = displayed_username props w.
Proof. repeat split. Qed.

(** C9. The submit handler leaves both hook cells as they were, with
    whatever arguments it is called, and so does a click on the submit
    button, blocked or not. *)
Theorem C9_submit_leaves_fields_unchanged
    (props : Props) (w : World) (args : list JsVal) :
  hooks (snd (form_onSubmit (Login props (hooks w)) args w)) = hooks w
  /\ hooks (step props ClickLoginButton w) = hooks w.
Proof.
  split.
  - destruct args as [|[] rest]; reflexivity.
  - apply hooks_step_ClickLoginButton.
Qed.

(** C10, as claimed, fails.  The claim covers any identifier and secret
    made of white space only.  Line breaks are white space, and a text or
    password control keeps none of them: after entering one line break
    into each field both fields are empty, the form is invalid, and a
    click on the submit button is blocked and logs nothing. *)
Lemma C10_counterexample_line_breaks_only :
  let w := run observed_props [EnterUsername LF; EnterPassword CR] mount in
  hooks w = mkState "" ""
  /\ checkValidity (Login observed_props (hooks w)) = false
  /\ step observed_props ClickLoginButton w = w
  /\ console (step observed_props ClickLoginButton w) = [].
Proof. repeat split. Qed.

(** C10, amended.  A rendered field is rejected as missing exactly when
    its value is the empty string.  For any non-empty identifier and
    secret without line breaks, those made of white space only included:
    entered into the fields they are stored as they are, the form is
    valid, and a click on the submit button logs the record with the very
    same two strings. *)
Theorem C10_entries_without_line_breaks_accepted_verbatim
    (props : Props) (w : World) (u p : string) :
  u <> "" -> p <> "" ->
  has_line_break u = false -> has_line_break p = false ->
  let w' := run props [EnterUsername u; EnterPassword p] w in
  (forall cells,
     (value_missing (input_username (Login props cells)) = true
      <-> username cells = "")
     /\ (value_missing (input_password (Login props cells)) = true
         <-> password cells = ""))
  /\ hooks w' = mkState u p
  /\ checkValidity (Login props (hooks w')) = true
  /\ console (step props ClickLoginButton w') = console w' ++ [login_attempt u p].
Proof.
  intros Hu Hp Lu Lp w'.
  assert (Hw : hooks w' = mkState u p).
  { subst w'. unfold EnterUsername, EnterPassword.
    now rewrite (strip_line_breaks_fixed _ Lu), (strip_line_breaks_fixed _ Lp). }
  split; [intros cells; split; apply String.eqb_eq|].
  split; [exact Hw|]. rewrite Hw. split.
  - rewrite checkValidity_Login. simpl.
    now rewrite (eqb_empty_false _ Hu), (eqb_empty_false _ Hp).
  - rewrite step_ClickLoginButton_accepted, submit_form_Login, Hw;
      [reflexivity | now rewrite Hw | now rewrite Hw].
Qed.

Lemma C10_witness_single_spaces :
  let w' := run observed_props [EnterUsername " "; EnterPassword " "] mount in
  (forall cells,
     (value_missing (input_username (Login observed_props cells)) = true
      <-> username cells = "")
     /\ (value_missing (input_password (Login observed_props cells)) = true
         <-> password cells = ""))
  /\ hooks w' = mkState " " " "
  /\ checkValidity (Login observed_props (hooks w')) = true
  /\ console (step observed_props ClickLoginButton w')
     = console w' ++ [login_attempt " " " "].
Proof.
  apply (C10_entries_without_line_breaks_accepted_verbatim
           observed_props mount " " " ");
    try discriminate; reflexivity.
Defined.

(** White space outside ASCII is kept like any other text: a tab and a
    no-break space (its two UTF-8 bytes) are accepted and logged as they
    are. *)
Example tab_and_no_break_space_accepted :
  let tab := String "009"%char EmptyString in
  let nbsp := String "194"%char (String "160"%char EmptyString) in
  let w := run observed_props [EnterUsername tab; EnterPassword nbsp] mount in
  hooks w = mkState tab nbsp
  /\ console (step observed_props ClickLoginButton w) = [login_attempt tab nbsp].
Proof. split; reflexivity. Qed.

(* ===================================================================== *)
(** ** Whole runs, and the edges of the handlers *)
(* ===================================================================== *)

Lemma run_cons props a acts w :
  run props (a :: acts) w = run props acts (step props a w).
Proof. reflexivity. Qed.

Lemma run_snoc props acts a w :
  run props (acts ++ [a]) w = step props a (run props acts w).
Proof. unfold run. now rewrite fold_left_app. Qed.

(** What one step does to each sink, under the observed props. *)

Lemma page_loads_step_observed a w :
  page_loads (step observed_props a w) = page_loads w.
Proof.
  destruct a; try reflexivity.
  unfold step. destruct (checkValidity _); [|reflexivity].
  now rewrite submit_form_Login.
Qed.

Lemma href_writes_step_observed a w :
  href_writes (step observed_props a w)
  = href_writes w ++ (if is_kakao_click a then [kakao_url] else []).
Proof.
  destruct a; simpl is_kakao_click; rewrite ?app_nil_r; try reflexivity.
  unfold step. destruct (checkValidity _); [|reflexivity].
  now rewrite submit_form_Login.
Qed.

Lemma signup_calls_step_observed a w :
  signup_calls (step observed_props a w)
  = signup_calls w ++ (if is_sign_up_click a then [[VEvent ClickEvent]] else []).
Proof.
  destruct a; simpl is_sign_up_click; rewrite ?app_nil_r; try reflexivity.
  unfold step. destruct (checkValidity _); [|reflexivity].
  now rewrite submit_form_Login.
Qed.

Lemma count_actions_cons f a acts :
  count_actions f (a :: acts)
  = (if f a then 1 else 0) + count_actions f acts.
Proof. unfold count_actions. simpl. now destruct (f a). Qed.

(** X1. The console is append-only: after any run of actions, from any
    world, the console is the console before the run followed by login
    records with both fields non-empty; no earlier entry is removed or
    rewritten. *)
Theorem X1_console_append_only (acts : list UserAction) (w : World) :
  exists entries,
    console (run observed_props acts w) = console w ++ entries
    /\ Forall nonempty_attempt entries.
Proof.
  revert w. induction acts as [|a acts IH]; intros w.
  - exists []. split; [now rewrite app_nil_r | constructor].
  - rewrite run_cons.
    destruct (IH (step observed_props a w)) as (l & Hl & Fl).
    destruct (console_step_observed a w) as [E | (e & He & E)];
      rewrite E in Hl.
    + now exists l.
    + exists (e :: l). split; [now rewrite Hl, <- app_assoc | now constructor].
Qed.

(** X2. A submit click after any history of actions logs exactly the
    values last typed into the two fields, or logs nothing when one of
    them is the empty string. *)
Theorem X2_submit_after_history_logs_last_typed
    (acts : list UserAction) (w : World) :
  let u := last_typed_username acts (username (hooks w)) in
  let p := last_typed_password acts (password (hooks w)) in
  console (run observed_props (acts ++ [ClickLoginButton]) w)
  = console (run observed_props acts w)
    ++ (if (u =? "") || (p =? "") then [] else [login_attempt u p]).
Proof.
  intros u p. rewrite run_snoc.
  set (w1 := run observed_props acts w).
  assert (H : hooks w1 = mkState u p) by apply hooks_run_observed.
  assert (Hu : username (hooks w1) = u) by now rewrite H.
  assert (Hp : password (hooks w1) = p) by now rewrite H.
  unfold step. rewrite checkValidity_Login, Hu, Hp.
  destruct (u =? ""); cbn [negb andb orb]; [now rewrite app_nil_r|].
  destruct (p =? ""); cbn [negb andb orb]; [now rewrite app_nil_r|].
  now rewrite submit_form_Login, Hu, Hp.
Qed.

(** X3. No run of edits, submit clicks and sign-up clicks causes a page
    load: the count of page loads after the run is the count before it.
    Runs with a click on the Kakao button are left out: that click starts
    a navigation away from the page. *)
Theorem X3_no_page_load_without_kakao_click
    (acts : list UserAction) (w : World) :
  count_actions is_kakao_click acts = 0 ->
  page_loads (run observed_props acts w) = page_loads w.
Proof.
  intros _. revert w.
  induction acts as [|a acts IH]; intros w; [reflexivity|].
  now rewrite run_cons, IH, page_loads_step_observed.
Qed.

Lemma X3_witness_submit_twice :
  page_loads
    (run observed_props
       [TypeUsername "alice"; TypePassword "pw1"; ClickLoginButton;
        ClickSignUp; ClickLoginButton] mount)
  = page_loads mount.
Proof.
  apply (X3_no_page_load_without_kakao_click
           [TypeUsername "alice"; TypePassword "pw1"; ClickLoginButton;
            ClickSignUp; ClickLoginButton] mount).
  reflexivity.
Defined.

(** X4. Along any run, [window.location.href] is assigned once per click
    on the Kakao button and by nothing else, always with the same URL. *)
Theorem X4_only_kakao_clicks_navigate (acts : list UserAction) (w : World) :
  href_writes (run observed_props acts w)
  = href_writes w ++ repeat kakao_url (count_actions is_kakao_click acts).
Proof.
  revert w. induction acts as [|a acts IH]; intros w.
  - simpl. now rewrite app_nil_r.
  - rewrite run_cons, IH, href_writes_step_observed, count_actions_cons.
    rewrite <- app_assoc. f_equal.
    now destruct (is_kakao_click a).
Qed.

(** X5. Along any run, the parent's callback is called once per click on
    the sign-up affordance and by nothing else, each time with the click
    event as its one argument. *)
Theorem X5_only_sign_up_clicks_call_back (acts : list UserAction) (w : World) :
  signup_calls (run observed_props acts w)
  = signup_calls w
    ++ repeat [VEvent ClickEvent] (count_actions is_sign_up_click acts).
Proof.
  revert w. induction acts as [|a acts IH]; intros w.
  - simpl. now rewrite app_nil_r.
  - rewrite run_cons, IH, signup_calls_step_observed, count_actions_cons.
    rewrite <- app_assoc. f_equal.
    now destruct (is_sign_up_click a).
Qed.

(** X6. Nothing stops a repeated submission: with both fields non-empty,
    [n] clicks on the submit button in a row log [n] copies of the same
    record and leave the fields as they were. *)
Theorem X6_repeated_submit_logs_each_time
    (props : Props) (n : nat) (w : World) :
  username (hooks w) <> "" ->
  password (hooks w) <> "" ->
  console (run props (repeat ClickLoginButton n) w)
  = console w
    ++ repeat (login_attempt (username (hooks w)) (password (hooks w))) n
  /\ hooks (run props (repeat ClickLoginButton n) w) = hooks w.
Proof.
  revert w. induction n as [|n IH]; intros w Hu Hp.
  - simpl. now rewrite app_nil_r.
  - simpl repeat. rewrite run_cons.
    assert (Hh : hooks (step props ClickLoginButton w) = hooks w)
      by apply hooks_step_ClickLoginButton.
    destruct (IH (step props ClickLoginButton w)) as [Hc Hk];
      [now rewrite Hh | now rewrite Hh |].
    rewrite Hc, Hk, Hh. split; [|reflexivity].
    rewrite (step_ClickLoginButton_accepted _ _ Hu Hp), submit_form_Login.
    simpl console. now rewrite <- app_assoc.
Qed.

Lemma X6_witness_double_click :
  let w := run observed_props [TypeUsername "alice"; TypePassword "pw1"] mount in
  console (run observed_props (repeat ClickLoginButton 2) w)
  = console w ++ repeat (login_attempt "alice" "pw1") 2
  /\ hooks (run observed_props (repeat ClickLoginButton 2) w) = hooks w.
Proof.
  apply (X6_repeated_submit_logs_each_time observed_props 2
           (run observed_props [TypeUsername "alice"; TypePassword "pw1"] mount));
    discriminate.
Defined.

(** X7. Called without an event object (first argument [undefined]) the
    submit handler and both change handlers throw a TypeError before
    doing anything: nothing is logged and no field is changed. *)
Theorem X7_handlers_throw_without_event
    (props : Props) (cells : LoginFormState) (args : list JsVal) (w : World) :
  arg 0 args = VUndefined ->
  form_onSubmit (Login props cells) args w = (Throw TypeError, w)
  /\ onChange (input_username (Login props cells)) args w = (Throw TypeError, w)
  /\ onChange (input_password (Login props cells)) args w = (Throw TypeError, w).
Proof.
  intros H. simpl. unfold handleLogin, bind. rewrite H. simpl.
  repeat split.
Qed.

Lemma X7_witness_no_arguments :
  form_onSubmit (Login observed_props (mkState "alice" "pw1")) [] mount
  = (Throw TypeError, mount)
  /\ onChange (input_username (Login observed_props (mkState "alice" "pw1"))) [] mount
     = (Throw TypeError, mount)
  /\ onChange (input_password (Login observed_props (mkState "alice" "pw1"))) [] mount
     = (Throw TypeError, mount).
Proof.
  apply (X7_handlers_throw_without_event
           observed_props (mkState "alice" "pw1") [] mount).
  reflexivity.
Defined.

(** X8. Edits of the two fields commute, and a later edit of a field
    overwrites an earlier one of the same field: the world after the run
    is the same. *)
Theorem X8_edits_commute_and_overwrite
    (props : Props) (w : World) (u u' p p' : string) :
  run props [TypeUsername u; TypePassword p] w
  = run props [TypePassword p; TypeUsername u] w
  /\ run props [TypeUsername u'; TypeUsername u] w = run props [TypeUsername u] w
  /\ run props [TypePassword p'; TypePassword p] w = run props [TypePassword p] w.
Proof. repeat split. Qed.

(** X9. Typing has no effect outside the two fields: a run made of edits
    only logs nothing, assigns no location, calls no callback, loads no
    page and leaves the event flag alone. *)
Theorem X9_edits_touch_only_fields
    (props : Props) (acts : list UserAction) (w : World) :
  forallb is_edit acts = true ->
  run props acts w = with_hooks (hooks (run props acts w)) w.
Proof.
  revert w. induction acts as [|a acts IH]; intros w H.
  - now destruct w.
  - simpl in H. apply andb_true_iff in H as [Ha H].
    rewrite run_cons. rewrite (IH _ H).
    destruct a; try discriminate Ha; reflexivity.
Qed.

Lemma X9_witness_two_edits :
  run observed_props [TypeUsername "alice"; TypePassword "pw1"] mount
  = with_hooks
      (hooks (run observed_props [TypeUsername "alice"; TypePassword "pw1"] mount))
      mount.
Proof.
  apply (X9_edits_touch_only_fields
           observed_props [TypeUsername "alice"; TypePassword "pw1"] mount).
  reflexivity.
Defined.



